(** * The remote storage driver (pkg/filemanager/driver/remote/remote.go)

    A shallow embedding of [Driver] and its methods.  Every method of the
    driver is a straight-line program that talks to collaborators living
    outside the file: the Session Client ([handler.uploadClient]), the
    upload request's stream ([file.Close]) and the progress callback handed
    to [List].  Those calls are kept as nodes of a small program tree; what
    they answer is decided by an arbitrary environment, and running a
    program against an environment yields its result together with the
    chronological list of calls it issued. *)

From Stdlib Require Import Ascii String List ZArith Bool Lia.
Import ListNotations.
Local Open Scope string_scope.
Local Open Scope list_scope.

Set Implicit Arguments.

(** ** Go values *)

Module Go.

(** A non-nil [error].  The driver builds errors in two ways only:
    [errors.New(text)] and [fmt.Errorf(prefix + "%w", cause)].
    Collaborators hand back errors of the same shape. *)
Inductive error_value : Type :=
| errors_New (text : string)
| fmt_Errorf_w (prefix : string) (cause : error_value).

(** The interface type [error]; [None] is [nil]. *)
Definition error : Type := option error_value.

Fixpoint Error (e : error_value) : string :=
  match e with
  | errors_New text => text
  | fmt_Errorf_w prefix cause => prefix ++ Error cause
  end.

Definition Unwrap (e : error_value) : error :=
  match e with
  | errors_New _ => None
  | fmt_Errorf_w _ cause => Some cause
  end.

(** A slice; [None] is the nil slice, [Some []] is the empty literal
    [[]T{}].  Both have length 0. *)
Definition slice (A : Type) : Type := option (list A).

Definition len {A : Type} (s : slice A) : Z :=
  match s with
  | None => 0%Z
  | Some l => Z.of_nat (length l)
  end.

(** How a call ends: it returns a value or it panics. *)
Inductive outcome (X : Type) : Type :=
| Returned (x : X)
| Panicked (v : string).

Arguments Panicked {X} v.

End Go.

Import Go.

(** ** What the file imports

    Types, constants and pure helpers that the driver uses and that are
    declared in other packages.  They are taken as they are used in
    remote.go; nothing more is assumed about them. *)

Class Platform : Type := {
  (** context.Context *)
  context : Type;
  (** time.Time *)
  Time : Type;
  (** A parsed URL (net/url), with url.Parse and the String method *)
  URL : Type;
  url_Parse : string -> URL + error_value;
  URL_String : URL -> string;
  (** setting.UseFirstSiteUrl *)
  UseFirstSiteUrl : context -> context;
  (** types.PolicyTypeRemote *)
  PolicyTypeRemote : string;
  (** conf.SlaveMode; conf.SysMode is a string type *)
  SlaveMode : string;
  (** routes.SlaveThumbUrl(base, srcPath, ext) *)
  SlaveThumbUrl : URL -> string -> string -> URL;
  (** routes.SlaveFileContentUrl(base, srcPath, name, download, speed, nodeId) *)
  SlaveFileContentUrl : URL -> string -> string -> bool -> Z -> Z -> URL;
  (** routes.MasterSlaveCallbackUrl(base, policyType, sessionID, secret) *)
  MasterSlaveCallbackUrl : URL -> string -> string -> string -> URL;
  (** fs.PhysicalObject and driver.MediaMeta *)
  fs_PhysicalObject : Type;
  driver_MediaMeta : Type;
  (** A pointer to an fs.UploadRequest, held by reference *)
  UploadRequest : Type;
  (** driver.ListProgressFunc, a function value held by reference *)
  ListProgressFunc : Type;
  (** The keyed hash of the Signer: from a parsed URL, a secret and an
      optional expiry to the URL carrying the signature and the expiry as
      query parameters. *)
  hmac_signed : URL -> string -> option Time -> URL;
  (** The Signer's error for a node whose secret is empty or unset. *)
  ErrSecretUnset : error_value
}.

Section Remote.

Context {P : Platform}.

(** ** Data model: the fields remote.go reads or writes *)

(** ent.Node, reached as [Policy.Edges.Node]. *)
Record Node : Type := {
  Server : string;
  SlaveKey : string
}.

Record StoragePolicyEdges : Type := {
  Edges_Node : Node
}.

(** types.PolicySetting *)
Record PolicySetting : Type := {
  ChunkSize : Z;
  MediaMetaExts : slice string;
  MediaMetaGeneratorProxy : bool;
  ThumbExts : slice string;
  ThumbGeneratorProxy : bool;
  ThumbMaxSize : Z;
  ThumbSupportAllExts : bool
}.

(** ent.StoragePolicy *)
Record StoragePolicy : Type := {
  NodeID : Z;
  Settings : PolicySetting;
  Edges : StoragePolicyEdges
}.

(** auth.Auth; the driver is built with [auth.HMACAuth{secret}]. *)
Record Auth : Type := HMACAuth {
  SecretKey : string
}.

(** conf.ConfigProvider, through [System().Mode]. *)
Record System : Type := {
  Mode : string
}.

Record ConfigProvider : Type := {
  config_System : System
}.

(** setting.Provider, through [SiteURL(ctx)]. *)
Record SettingProvider : Type := {
  SiteURL : context -> URL
}.

(** The [Driver] struct.  Its two client fields ([Client], never used by
    the methods, and [uploadClient]) are references to collaborators; the
    Session Client is the environment the methods run against. *)
Record Driver : Type := {
  Policy : StoragePolicy;
  AuthInstance : Auth;
  config : ConfigProvider;
  settings : SettingProvider
}.

(** fs.UploadProps, reached as [uploadSession.Props]. *)
Record UploadProps : Type := {
  UploadSessionID : string;
  ExpireAt : Time
}.

(** fs.UploadSession *)
Record UploadSession : Type := {
  Callback : string;
  CallbackSecret : string;
  Props : UploadProps
}.

(** fs.UploadCredential *)
Record UploadCredential : Type := {
  SessionID : string;
  Cred_ChunkSize : Z;
  UploadURLs : slice string;
  Credential : string
}.

(** driver.GetSourceArgs *)
Record GetSourceArgs : Type := {
  DisplayName : string;
  IsDownload : bool;
  Speed : Z;
  Expire : option Time
}.

(** fs.Entity, through its [Source()] method. *)
Record Entity : Type := {
  Entity_Source : string
}.

(** boolset.BooleanSet is a byte slice. *)
Definition BooleanSet : Type := slice Z.

(** driver.Capabilities *)
Record driver_Capabilities : Type := {
  StaticFeatures : BooleanSet;
  MediaMetaSupportedExts : slice string;
  MediaMetaProxy : bool;
  ThumbSupportedExts : slice string;
  ThumbProxy : bool;
  Cap_ThumbMaxSize : Z;
  Cap_ThumbSupportAllExts : bool
}.

(** The package variable [features = &boolset.BooleanSet{}]. *)
Definition features : BooleanSet := Some [].

(** The assignment [uploadSession.Callback = url]. *)
Definition set_Callback (url : string) (s : UploadSession) : UploadSession :=
  {| Callback := url;
     CallbackSecret := CallbackSecret s;
     Props := Props s |}.

(** ** Calls that leave the driver *)

(** Modelled from the spec: the Session Client interface is declared in a
    file of the package that is not part of this development.  Its seven
    methods are taken with the signatures the spec lists (List, Upload,
    DeleteFiles, CreateUploadSession, GetUploadURL, DeleteUploadSession,
    MediaMeta) and the arguments remote.go passes.  CreateUploadSession
    receives the descriptor as it stands at the call and answers with an
    error only: the descriptor is written by [Token]'s assignment and by
    nothing else.  The last two constructors are the two other calls the
    driver makes on values it was handed: closing the upload request and
    invoking the progress callback. *)
Inductive call : Type :=
| Client_List (ctx : context) (base : string) (recursive : bool)
| Client_Upload (ctx : context) (file : UploadRequest)
| Client_DeleteFiles (ctx : context) (files : list string)
| Client_CreateUploadSession (ctx : context) (session : UploadSession)
    (overwrite : bool)
| Client_GetUploadURL (ctx : context) (expire : Time) (sessionID : string)
| Client_DeleteUploadSession (ctx : context) (sessionID : string)
| Client_MediaMeta (ctx : context) (src ext : string)
| UploadRequest_Close (file : UploadRequest)
| ListProgressFunc_call (onProgress : ListProgressFunc) (n : Z).

(** What each call gives back when it returns. *)
Definition resp (c : call) : Type :=
  match c with
  | Client_List _ _ _ => (slice fs_PhysicalObject * error)%type
  | Client_Upload _ _ => error
  | Client_DeleteFiles _ _ => (slice string * error)%type
  | Client_CreateUploadSession _ _ _ => error
  | Client_GetUploadURL _ _ _ => (string * string * error)%type
  | Client_DeleteUploadSession _ _ => error
  | Client_MediaMeta _ _ _ => (slice driver_MediaMeta * error)%type
  | UploadRequest_Close _ => error
  | ListProgressFunc_call _ _ => unit
  end.

(** The calls that go to the remote node. *)
Definition is_remote (c : call) : bool :=
  match c with
  | UploadRequest_Close _ | ListProgressFunc_call _ _ => false
  | _ => true
  end.

Definition is_Close (c : call) : bool :=
  match c with
  | UploadRequest_Close _ => true
  | _ => false
  end.

Definition is_progress (c : call) : bool :=
  match c with
  | ListProgressFunc_call _ _ => true
  | _ => false
  end.

Definition is_DeleteUploadSession (c : call) : bool :=
  match c with
  | Client_DeleteUploadSession _ _ => true
  | _ => false
  end.

(** ** Programs *)

(** A program either is done or issues a call and goes on with how the
    call ended. *)
Inductive prog (A : Type) : Type :=
| Done (a : A)
| Call (c : call) (k : outcome (resp c) -> prog A).

Arguments Done {A} a.
Arguments Call {A} c k.

Fixpoint prog_bind {A B : Type} (p : prog A) (f : A -> prog B) : prog B :=
  match p with
  | Done a => f a
  | Call c k => Call c (fun o => prog_bind (k o) f)
  end.

(** A method body: it works on the memory [S] its pointer arguments give
    it access to, and ends by returning or by panicking.  The memory
    outlives a panic. *)
Definition exec (S R : Type) : Type := S -> prog (S * outcome R).

Definition ret {S R : Type} (r : R) : exec S R :=
  fun s => Done (s, Returned r).

Definition bind {S A B : Type} (m : exec S A) (f : A -> exec S B) : exec S B :=
  fun s =>
    prog_bind (m s) (fun so =>
      match snd so with
      | Returned a => f a (fst so)
      | Panicked v => Done (fst so, Panicked v)
      end).

(** Issue a call; a panic of the callee unwinds the caller. *)
Definition perform {S : Type} (c : call) : exec S (resp c) :=
  fun s => Call c (fun o => Done (s, o)).

Definition gets {S A : Type} (f : S -> A) : exec S A :=
  fun s => Done (s, Returned (f s)).

Definition modify {S : Type} (f : S -> S) : exec S unit :=
  fun s => Done (f s, Returned tt).

(** [defer d; body]: [d] runs when [body] is over, however it ended.  What
    [d] returns is dropped; if [d] panics, that panic is the one that
    unwinds. *)
Definition defer {S A R : Type} (d : exec S A) (body : exec S R) : exec S R :=
  fun s =>
    prog_bind (body s) (fun so =>
      prog_bind (d (fst so)) (fun sd =>
        match snd sd with
        | Returned _ => Done (fst sd, snd so)
        | Panicked v => Done (fst sd, Panicked v)
        end)).

Notation "x <- m ;; k" := (bind m (fun x => k))
  (at level 61, m at next level, right associativity).
Notation "' pat <- m ;; k" := (bind m (fun x => match x with pat => k end))
  (at level 61, pat pattern, m at next level, right associativity).

(** ** The Signer *)

(** Modelled from the spec: auth.SignURI and auth.HMACAuth are declared in
    another package.  The spec gives the Signer as
    Sign(rawURL, expiry) -> SignedURL | SigningError: it fails when the raw
    URL cannot be parsed or the node's secret is empty or unset, and
    otherwise yields the base URL plus signature and optional expiry as
    query parameters, derived from (base URL, shared secret, expiry).  The
    context argument is the one remote.go passes; the spec gives it no part
    in the result. *)
Definition SignURI (ctx : context) (instance : Auth) (uri : string)
    (expire : option Time) : URL + error_value :=
  match url_Parse uri with
  | inr err => inr err
  | inl base =>
      if (SecretKey instance =? "")%string
      then inr ErrSecretUnset
      else inl (hmac_signed base (SecretKey instance) expire)
  end.

(** ** The methods of [Driver] *)

(** Memory of a method with the receiver only: what [handler] points to. *)
Definition Mem : Type := Driver.

(** Memory of a method that also takes a session descriptor by pointer. *)
Record SessionMem : Type := {
  handler : Driver;
  uploadSession : UploadSession
}.

Definition write_uploadSession (f : UploadSession -> UploadSession)
    (m : SessionMem) : SessionMem :=
  {| handler := handler m; uploadSession := f (uploadSession m) |}.

Definition List (ctx : context) (base : string) (onProgress : ListProgressFunc)
    (recursive : bool) : exec Mem (slice fs_PhysicalObject * error) :=
  ' (res, err) <- perform (Client_List ctx base recursive) ;;
  match err with
  | Some e => ret (None, Some e)
  | None =>
      _ <- perform (ListProgressFunc_call onProgress (len res)) ;;
      ret (res, None)
  end.

(** [Open] returns a nil [*os.File]; [unit] stands for the file that is
    never produced. *)
Definition Open (ctx : context) (path : string) : exec Mem (option unit * error) :=
  ret (None, Some (errors_New "not implemented")).

Definition LocalPath (ctx : context) (path : string) : exec Mem string :=
  ret "".

Definition Put (ctx : context) (file : UploadRequest) : exec Mem error :=
  defer (perform (UploadRequest_Close file))
    (perform (Client_Upload ctx file)).

Definition Delete (ctx : context) (files : list string)
  : exec Mem (slice string * error) :=
  ' (failed, err) <- perform (Client_DeleteFiles ctx files) ;;
  match err with
  | Some e => ret (failed, Some e)
  | None => ret (Some [], None)
  end.

Definition Thumb (ctx : context) (expire : option Time) (ext : string)
    (e : Entity) : exec Mem (string * error) :=
  this <- gets (fun d : Mem => d) ;;
  match url_Parse (Server (Edges_Node (Edges (Policy this)))) with
  | inr err => ret ("", Some (fmt_Errorf_w "parse server url failed: " err))
  | inl serverURL =>
      let thumbURL := SlaveThumbUrl serverURL (Entity_Source e) ext in
      match SignURI ctx (AuthInstance this) (URL_String thumbURL) expire with
      | inr err => ret ("", Some err)
      | inl signedThumbURL => ret (URL_String signedThumbURL, None)
      end
  end.

Definition Source (ctx : context) (e : Entity) (args : GetSourceArgs)
  : exec Mem (string * error) :=
  this <- gets (fun d : Mem => d) ;;
  match url_Parse (Server (Edges_Node (Edges (Policy this)))) with
  | inr err => ret ("", Some err)
  | inl server =>
      let nodeId :=
        if (Mode (config_System (config this)) =? SlaveMode)%string
        then NodeID (Policy this)
        else 0%Z in
      let base :=
        SlaveFileContentUrl server (Entity_Source e) (DisplayName args)
          (IsDownload args) (Speed args) nodeId in
      match SignURI ctx (AuthInstance this) (URL_String base) (Expire args) with
      | inr err =>
          ret ("", Some (fmt_Errorf_w
                           "failed to sign internal slave content URL: " err))
      | inl internalProxyed => ret (URL_String internalProxyed, None)
      end
  end.

Definition Token (ctx : context) (file : UploadRequest)
  : exec SessionMem (option UploadCredential * error) :=
  this <- gets handler ;;
  let siteURL := SiteURL (settings this) (UseFirstSiteUrl ctx) in
  s0 <- gets uploadSession ;;
  _ <- modify (write_uploadSession (set_Callback
         (URL_String (MasterSlaveCallbackUrl siteURL PolicyTypeRemote
                        (UploadSessionID (Props s0)) (CallbackSecret s0))))) ;;
  s1 <- gets uploadSession ;;
  err <- perform (Client_CreateUploadSession ctx s1 false) ;;
  match err with
  | Some e => ret (None, Some e)
  | None =>
      s2 <- gets uploadSession ;;
      ' (uploadURL, sign, err) <-
        perform (Client_GetUploadURL ctx (ExpireAt (Props s2))
                   (UploadSessionID (Props s2))) ;;
      match err with
      | Some e => ret (None, Some (fmt_Errorf_w "failed to sign upload url: " e))
      | None =>
          s3 <- gets uploadSession ;;
          this <- gets handler ;;
          ret (Some {| SessionID := UploadSessionID (Props s3);
                       Cred_ChunkSize := ChunkSize (Settings (Policy this));
                       UploadURLs := Some [uploadURL];
                       Credential := sign |}, None)
      end
  end.

Definition CancelToken (ctx : context) : exec SessionMem error :=
  s <- gets uploadSession ;;
  perform (Client_DeleteUploadSession ctx (UploadSessionID (Props s))).

Definition CompleteUpload (ctx : context) : exec SessionMem error :=
  ret None.

Definition Capabilities : exec Mem driver_Capabilities :=
  this <- gets (fun d : Mem => d) ;;
  ret {| StaticFeatures := features;
         MediaMetaSupportedExts := MediaMetaExts (Settings (Policy this));
         MediaMetaProxy := MediaMetaGeneratorProxy (Settings (Policy this));
         ThumbSupportedExts := ThumbExts (Settings (Policy this));
         ThumbProxy := ThumbGeneratorProxy (Settings (Policy this));
         Cap_ThumbMaxSize := ThumbMaxSize (Settings (Policy this));
         Cap_ThumbSupportAllExts := ThumbSupportAllExts (Settings (Policy this)) |}.

Definition MediaMeta (ctx : context) (path ext : string)
  : exec Mem (slice driver_MediaMeta * error) :=
  perform (Client_MediaMeta ctx path ext).

(** ** Running a program against an environment *)

Section Run.

Variable W : Type.

(** An environment answers every call, possibly changing its own state. *)
Definition env : Type := forall c : call, W -> outcome (resp c) * W.

Variable E : env.

(** The result, the environment's final state and the calls issued, in
    order. *)
Fixpoint run_prog {A : Type} (p : prog A) (w : W) : A * W * list call :=
  match p with
  | Done a => (a, w, [])
  | Call c k =>
      let ow := E c w in
      let r := run_prog (k (fst ow)) (snd ow) in
      (fst (fst r), snd (fst r), c :: snd r)
  end.

Definition run {S R : Type} (m : exec S R) (s : S) (w : W)
  : (S * outcome R) * W * list call :=
  run_prog (m s) w.

(** The parts of a run. *)
Definition mem_of {S R : Type} (r : (S * outcome R) * W * list call) : S :=
  fst (fst (fst r)).

Definition outcome_of {S R : Type} (r : (S * outcome R) * W * list call)
  : outcome R :=
  snd (fst (fst r)).

Definition world_of {S R : Type} (r : (S * outcome R) * W * list call) : W :=
  snd (fst r).

Definition calls_of {S R : Type} (r : (S * outcome R) * W * list call)
  : list call :=
  snd r.

End Run.

(** How often a kind of call occurs among the calls issued. *)
Definition count (f : call -> bool) (l : list call) : nat :=
  length (filter f l).

(** The callback URL [Token] stamps on a descriptor. *)
Definition master_callback (ctx : context) (m : SessionMem) : string :=
  URL_String
    (MasterSlaveCallbackUrl
       (SiteURL (settings (handler m)) (UseFirstSiteUrl ctx))
       PolicyTypeRemote
       (UploadSessionID (Props (uploadSession m)))
       (CallbackSecret (uploadSession m))).

(** The memory [Token] leaves behind: the descriptor with its callback
    stamped, the driver as it was. *)
Definition stamped (ctx : context) (m : SessionMem) : SessionMem :=
  write_uploadSession (set_Callback (master_callback ctx m)) m.

(** The node identifier [Source] hands to the content route. *)
Definition source_nodeId (d : Driver) : Z :=
  if (Mode (config_System (config d)) =? SlaveMode)%string
  then NodeID (Policy d)
  else 0%Z.

(** ** Building a driver *)

(** [New].  NewClient belongs to the package and is declared outside this
    file; [newClient] is the error it returned for the same arguments.  On a
    nil error the client it built is the environment the methods run
    against, [request.NewClient(config)] fills the field no method reads,
    and the logger reaches NewClient only.  The conversion of the slave key
    to bytes keeps its content. *)
Definition New (ctx : context) (policy : StoragePolicy)
    (settings : SettingProvider) (config : ConfigProvider)
    (newClient : error) : option Driver * error :=
  match newClient with
  | Some err => (None, Some err)
  | None =>
      (Some {| Policy := policy;
               AuthInstance := HMACAuth (SlaveKey (Edges_Node (Edges policy)));
               config := config;
               settings := settings |},
       None)
  end.

(** The driver signs with the slave key of its own policy's node. *)
Definition signs_with_node_key (d : Driver) : Prop :=
  AuthInstance d = HMACAuth (SlaveKey (Edges_Node (Edges (Policy d)))).

End Remote.

Arguments mem_of {P W S R} r.
Arguments outcome_of {P W S R} r.
Arguments world_of {P W S R} r.
Arguments calls_of {P W S R} r.

(** ** A small concrete setting

    One platform and one scripted environment, used to run the methods on
    concrete inputs. *)

Module Demo.

Local Open Scope string_scope.

(** A stand-in for url.Parse: as there, an address that begins with a
    colon has no scheme and is refused, and the empty address parses. *)
Definition parse (s : string) : string + error_value :=
  match s with
  | String ":"%char _ => inr (errors_New "missing protocol scheme")
  | _ => inl s
  end.

#[export] Instance platform : Platform := {|
  context := unit;
  Time := Z;
  URL := string;
  url_Parse := parse;
  URL_String := fun u => u;
  UseFirstSiteUrl := fun c => c;
  PolicyTypeRemote := "remote";
  SlaveMode := "slave";
  SlaveThumbUrl := fun base src ext => base ++ "/thumb/" ++ src ++ "." ++ ext;
  SlaveFileContentUrl := fun base src name dl speed node =>
    base ++ "/content/" ++ src ++ "/" ++ name
         ++ (if dl then "?download" else "?inline")
         ++ (if (node =? 0)%Z then "" else "&node");
  MasterSlaveCallbackUrl := fun base ty id secret =>
    base ++ "/callback/" ++ ty ++ "/" ++ id ++ "/" ++ secret;
  fs_PhysicalObject := string;
  driver_MediaMeta := string;
  UploadRequest := nat;
  ListProgressFunc := nat;
  hmac_signed := fun u key _ => u ++ "&sign=" ++ key;
  ErrSecretUnset := errors_New "secret unset"
|}.

Definition policy : StoragePolicy :=
  {| NodeID := 7;
     Settings := {| ChunkSize := 1024;
                    MediaMetaExts := None;
                    MediaMetaGeneratorProxy := false;
                    ThumbExts := Some ["jpg"; "png"];
                    ThumbGeneratorProxy := true;
                    ThumbMaxSize := 0;
                    ThumbSupportAllExts := false |};
     Edges := {| Edges_Node := {| Server := "http://slave";
                                  SlaveKey := "k" |} |} |}.

Definition driver (mode : string) : Driver :=
  {| Policy := policy;
     AuthInstance := HMACAuth "k";
     config := {| config_System := {| Mode := mode |} |};
     settings := {| SiteURL := fun _ => "http://master" |} |}.

Definition session : UploadSession :=
  {| Callback := "";
     CallbackSecret := "s3cr3t";
     Props := {| UploadSessionID := "sid-1"; ExpireAt := 100%Z |} |}.

Definition mem : SessionMem :=
  {| handler := driver "master"; uploadSession := session |}.

Definition ctx : @context platform := tt.

Definition file : @UploadRequest platform := 1%nat.

Definition panicking_file : @UploadRequest platform := 13%nat.

Definition onProgress : @ListProgressFunc platform := 5%nat.

Definition entity : Entity := {| Entity_Source := "f.bin" |}.

Definition args : GetSourceArgs :=
  {| DisplayName := "f"; IsDownload := true; Speed := 0; Expire := None |}.

(** The environment's state is the number of calls that still go well;
    once it is used up, session-client calls report an error.  A call on
    the upload request numbered 13 panics. *)
Definition answers : env nat :=
  fun c w =>
    match c as c0 return outcome (resp c0) * nat with
    | Client_List _ _ _ =>
        match w with
        | O => (Returned (None, Some (errors_New "list failed")), O)
        | S w' => (Returned (Some ["a"; "b"; "c"], None), w')
        end
    | Client_Upload _ file =>
        if Nat.eqb file 13 then (Panicked "upload panicked", w)
        else match w with
             | O => (Returned (Some (errors_New "upload failed")), O)
             | S w' => (Returned None, w')
             end
    | Client_DeleteFiles _ files =>
        match w with
        | O => (Returned (Some files, Some (errors_New "delete failed")), O)
        | S w' => (Returned (Some (tl files), None), w')
        end
    | Client_CreateUploadSession _ _ _ =>
        match w with
        | O => (Returned (Some (errors_New "create failed")), O)
        | S w' => (Returned None, w')
        end
    | Client_GetUploadURL _ _ id =>
        match w with
        | O => (Returned ("", "", Some (errors_New "sign failed")), O)
        | S w' => (Returned ("http://slave/upload/" ++ id, "cred", None), w')
        end
    | Client_DeleteUploadSession _ _ =>
        match w with
        | O => (Returned (Some (errors_New "delete session failed")), O)
        | S w' => (Returned None, w')
        end
    | Client_MediaMeta _ _ _ => (Returned (None, None), w)
    | UploadRequest_Close _ => (Returned None, w)
    | ListProgressFunc_call _ _ => (Returned tt, w)
    end.

(** A policy whose node has a server address that does not parse, and its
    driver. *)
Definition policy_with_bad_server : StoragePolicy :=
  {| NodeID := 7;
     Settings := Settings policy;
     Edges := {| Edges_Node := {| Server := ":bad"; SlaveKey := "k" |} |} |}.

Definition driver_with_bad_server : Driver :=
  {| Policy := policy_with_bad_server;
     AuthInstance := HMACAuth "k";
     config := {| config_System := {| Mode := "master" |} |};
     settings := {| SiteURL := fun _ => "http://master" |} |}.

(** A slave-mode driver whose policy has node ID 0 and other settings. *)
Definition slave_driver_node_zero : Driver :=
  {| Policy := {| NodeID := 0;
                  Settings := {| ChunkSize := 5;
                                 MediaMetaExts := Some ["mp3"];
                                 MediaMetaGeneratorProxy := true;
                                 ThumbExts := None;
                                 ThumbGeneratorProxy := false;
                                 ThumbMaxSize := 9;
                                 ThumbSupportAllExts := true |};
                  Edges := Edges policy |};
     AuthInstance := HMACAuth "k";
     config := {| config_System := {| Mode := "slave" |} |};
     settings := {| SiteURL := fun _ => "http://elsewhere" |} |}.

(** An environment in which every call panics. *)
Definition all_panic : env nat :=
  fun c w => (Panicked "boom", w).

(** As [answers], except that closing an upload request panics. *)
Definition close_panics : env nat :=
  fun c w =>
    match c as c0 return outcome (resp c0) * nat with
    | UploadRequest_Close _ => (Panicked "close panicked", w)
    | c0 => answers c0 w
    end.

(** As [answers], except that closing an upload request reports an error. *)
Definition close_fails : env nat :=
  fun c w =>
    match c as c0 return outcome (resp c0) * nat with
    | UploadRequest_Close _ => (Returned (Some (errors_New "close failed")), w)
    | c0 => answers c0 w
    end.

(** As [answers], except that the progress callback panics. *)
Definition progress_panics : env nat :=
  fun c w =>
    match c as c0 return outcome (resp c0) * nat with
    | ListProgressFunc_call _ _ => (Panicked "callback panicked", w)
    | c0 => answers c0 w
    end.

(** As [answers], except that MediaMeta reports entries with an error. *)
Definition meta_partial : env nat :=
  fun c w =>
    match c as c0 return outcome (resp c0) * nat with
    | Client_MediaMeta _ _ _ =>
        (Returned (Some ["width=1"], Some (errors_New "meta failed")), w)
    | c0 => answers c0 w
    end.

End Demo.

(** * Properties of the driver *)

Section DriverProperties.

Context {P : Platform}.

Variable W : Type.
Variable E : env W.

(** Case analysis on how the environment answers the next call: the one
    whose world argument is a variable. *)
Ltac answer :=
  match goal with
  | |- context [E ?c ?w] =>
      is_var w;
      let o := fresh "o" in
      let w' := fresh "w" in
      let Hc := fresh "Hanswer" in
      destruct (E c w) as [o w'] eqn:Hc; cbn [fst snd] in *
  end.

(** Closing a case: compare the assumed answers with the actual ones. *)
Ltac settle :=
  intros;
  repeat match goal with
         | H : (_, _) = (_, _) |- _ => inversion H; clear H; subst
         | H1 : E ?c ?w = _, H2 : E ?c ?w = _ |- _ => rewrite H1 in H2
         end;
  try discriminate; cbn;
  try solve [reflexivity | eexists; repeat split; reflexivity | eauto].

Ltac expose := unfold run, mem_of, outcome_of, world_of, calls_of; cbn.

(** *** Running composed programs *)

Lemma run_prog_bind {A B : Type} (p : prog A) (f : A -> prog B) (w : W) :
  run_prog E (prog_bind p f) w =
  let r1 := run_prog E p w in
  let r2 := run_prog E (f (fst (fst r1))) (snd (fst r1)) in
  (fst (fst r2), snd (fst r2), snd r1 ++ snd r2).
Proof.
  revert w. induction p as [a | c k IH]; intros w; cbn.
  - destruct (run_prog E (f a) w) as [[b w2] l2]. reflexivity.
  - rewrite IH. cbn. reflexivity.
Qed.

(** The calls of [defer d body] are those of [body] followed by those of
    [d], run in the memory and the world [body] left: [d] is run once,
    however [body] ended. *)
Lemma run_defer {S A R : Type} (d : exec S A) (body : exec S R) (s : S) (w : W) :
  let rb := run E body s w in
  let rd := run E d (mem_of rb) (world_of rb) in
  calls_of (run E (defer d body) s w) = calls_of rb ++ calls_of rd
  /\ mem_of (run E (defer d body) s w) = mem_of rd
  /\ world_of (run E (defer d body) s w) = world_of rd
  /\ outcome_of (run E (defer d body) s w) =
       match outcome_of rd with
       | Returned _ => outcome_of rb
       | Panicked v => Panicked v
       end.
Proof.
  unfold run, defer, mem_of, world_of, calls_of, outcome_of.
  rewrite run_prog_bind. cbn.
  destruct (run_prog E (body s) w) as [[[s1 ob] w1] l1]. cbn.
  rewrite run_prog_bind. cbn.
  destruct (run_prog E (d s1) w1) as [[[s2 [x|v]] w2] l2]; cbn;
    rewrite app_nil_r; repeat split.
Qed.

(** *** Computation lemmas: each method run against [E] *)

Lemma run_Delete (ctx : context) (files : list string) (d : Mem) (w : W) :
  run E (Delete ctx files) d w =
  (d,
   match fst (E (Client_DeleteFiles ctx files) w) with
   | Returned (failed, Some e) => Returned (failed, Some e)
   | Returned (_, None) => Returned (Some [], None)
   | Panicked v => Panicked v
   end,
   snd (E (Client_DeleteFiles ctx files) w),
   [Client_DeleteFiles ctx files]).
Proof.
  expose. answer.
  destruct o as [[failed [e|]]|v]; reflexivity.
Qed.

Lemma run_List (ctx : context) (base : string) (onProgress : ListProgressFunc)
    (recursive : bool) (d : Mem) (w : W) :
  run E (List ctx base onProgress recursive) d w =
  match E (Client_List ctx base recursive) w with
  | (Returned (res, None), w1) =>
      let cb := ListProgressFunc_call onProgress (len res) in
      (d,
       match fst (E cb w1) with
       | Returned _ => Returned (res, None)
       | Panicked v => Panicked v
       end,
       snd (E cb w1),
       [Client_List ctx base recursive; cb])
  | (Returned (_, Some e), w1) =>
      (d, Returned (None, Some e), w1, [Client_List ctx base recursive])
  | (Panicked v, w1) =>
      (d, Panicked v, w1, [Client_List ctx base recursive])
  end.
Proof.
  expose. answer.
  destruct o as [[res [e|]]|v]; cbn; try reflexivity.
  answer.
  destruct o as [[]|v]; reflexivity.
Qed.

Lemma run_CancelToken (ctx : context) (m : SessionMem) (w : W) :
  run E (CancelToken ctx) m w =
  let c := Client_DeleteUploadSession ctx
             (UploadSessionID (Props (uploadSession m))) in
  (m, fst (E c w), snd (E c w), [c]).
Proof.
  expose. reflexivity.
Qed.

Lemma run_Token (ctx : context) (file : UploadRequest) (m : SessionMem) (w : W) :
  run E (Token ctx file) m w =
  let create :=
    Client_CreateUploadSession ctx (uploadSession (stamped ctx m)) false in
  let geturl :=
    Client_GetUploadURL ctx (ExpireAt (Props (uploadSession m)))
      (UploadSessionID (Props (uploadSession m))) in
  match E create w with
  | (Returned (Some e), w1) =>
      (stamped ctx m, Returned (None, Some e), w1, [create])
  | (Panicked v, w1) =>
      (stamped ctx m, Panicked v, w1, [create])
  | (Returned None, w1) =>
      match E geturl w1 with
      | (Returned (uploadURL, sign, None), w2) =>
          (stamped ctx m,
           Returned
             (Some {| SessionID := UploadSessionID (Props (uploadSession m));
                      Cred_ChunkSize :=
                        ChunkSize (Settings (Policy (handler m)));
                      UploadURLs := Some [uploadURL];
                      Credential := sign |},
              None),
           w2, [create; geturl])
      | (Returned (_, _, Some e), w2) =>
          (stamped ctx m,
           Returned (None, Some (fmt_Errorf_w "failed to sign upload url: " e)),
           w2, [create; geturl])
      | (Panicked v, w2) =>
          (stamped ctx m, Panicked v, w2, [create; geturl])
      end
  end.
Proof.
  unfold stamped, master_callback. expose.
  answer. destruct o as [[e|]|v]; cbn; try reflexivity.
  answer.
  destruct o as [[[uploadURL sign] [e|]]|v]; reflexivity.
Qed.

Lemma run_Open (ctx : context) (path : string) (d : Mem) (w : W) :
  run E (Open ctx path) d w =
  (d, Returned (None, Some (errors_New "not implemented")), w, []).
Proof. reflexivity. Qed.

Lemma run_LocalPath (ctx : context) (path : string) (d : Mem) (w : W) :
  run E (LocalPath ctx path) d w = (d, Returned "", w, []).
Proof. reflexivity. Qed.

Lemma run_CompleteUpload (ctx : context) (m : SessionMem) (w : W) :
  run E (CompleteUpload ctx) m w = (m, Returned None, w, []).
Proof. reflexivity. Qed.

Lemma run_Source (ctx : context) (e : Entity) (args : GetSourceArgs)
    (d : Mem) (w : W) :
  run E (Source ctx e args) d w =
  (d,
   Returned
     match url_Parse (Server (Edges_Node (Edges (Policy d)))) with
     | inr err => ("", Some err)
     | inl server =>
         match
           SignURI ctx (AuthInstance d)
             (URL_String
                (SlaveFileContentUrl server (Entity_Source e)
                   (DisplayName args) (IsDownload args) (Speed args)
                   (source_nodeId d)))
             (Expire args)
         with
         | inr err =>
             ("", Some (fmt_Errorf_w
                          "failed to sign internal slave content URL: " err))
         | inl signed => (URL_String signed, None)
         end
     end,
   w, []).
Proof.
  unfold source_nodeId, run, Source, bind, gets; cbn.
  destruct (url_Parse (Server (Edges_Node (Edges (Policy d))))) as [server|err];
    [|reflexivity].
  destruct (SignURI _ _ _ _); reflexivity.
Qed.

Lemma run_Thumb (ctx : context) (expire : option Time) (ext : string)
    (e : Entity) (d : Mem) (w : W) :
  run E (Thumb ctx expire ext e) d w =
  (d,
   Returned
     match url_Parse (Server (Edges_Node (Edges (Policy d)))) with
     | inr err => ("", Some (fmt_Errorf_w "parse server url failed: " err))
     | inl serverURL =>
         match
           SignURI ctx (AuthInstance d)
             (URL_String (SlaveThumbUrl serverURL (Entity_Source e) ext))
             expire
         with
         | inr err => ("", Some err)
         | inl signed => (URL_String signed, None)
         end
     end,
   w, []).
Proof.
  unfold run, Thumb, bind, gets; cbn.
  destruct (url_Parse (Server (Edges_Node (Edges (Policy d))))) as [server|err];
    [|reflexivity].
  destruct (SignURI _ _ _ _); reflexivity.
Qed.

(** Three facts about every run of [Token]: the memory it leaves, its first
    call, and the session ID of a credential it returns. *)
Lemma Token_run_shape (ctx : context) (file : UploadRequest) (m : SessionMem)
    (w : W) :
  let r := run E (Token ctx file) m w in
  mem_of r = stamped ctx m
  /\ (exists rest,
        calls_of r =
          Client_CreateUploadSession ctx (uploadSession (stamped ctx m)) false
            :: rest)
  /\ (forall cred,
        outcome_of r = Returned (Some cred, None) ->
        SessionID cred = UploadSessionID (Props (uploadSession m))).
Proof.
  cbv zeta. rewrite run_Token. cbv zeta.
  repeat match goal with
         | |- context [match ?x with _ => _ end] => destruct x
         end;
    (split; [reflexivity|]); (split; [eexists; reflexivity|]);
    intros cred H; inversion H; reflexivity.
Qed.

(** C1. Delete hands back what DeleteFiles reported when DeleteFiles
    reports an error (the failed paths and the very error); when DeleteFiles
    reports a nil error, Delete returns the empty list and a nil error,
    whatever failed-path list came with it.  Either way DeleteFiles is the
    single call issued. *)
Theorem Delete_propagates_error_else_empty
    (ctx : context) (files : list string) (d : Mem) (w w' : W)
    (failed : slice string) (err : error) :
  E (Client_DeleteFiles ctx files) w = (Returned (failed, err), w') ->
  let r := run E (Delete ctx files) d w in
  (forall e, err = Some e -> outcome_of r = Returned (failed, Some e))
  /\ (err = None -> outcome_of r = Returned (Some [], None))
  /\ calls_of r = [Client_DeleteFiles ctx files]
  /\ world_of r = w'.
Proof.
  intros Hanswer r. subst r. rewrite run_Delete, Hanswer.
  unfold outcome_of, calls_of, world_of. cbn.
  repeat split.
  - intros e ->. reflexivity.
  - intros ->. reflexivity.
Qed.

(** C2. Token sets the descriptor's Callback to the master callback URL
    (site URL, remote policy type, session ID, callback secret) and leaves
    its other fields, then calls CreateUploadSession with the descriptor
    carrying that callback and returns its error as it is, then calls
    GetUploadURL and returns its error wrapped; when both go well the
    credential carries the session ID, the policy's chunk size, the one
    upload URL and the signature. *)
Theorem Token_stamps_creates_then_signs
    (ctx : context) (file : UploadRequest) (m : SessionMem) (w : W) :
  let r := run E (Token ctx file) m w in
  let url :=
    URL_String
      (MasterSlaveCallbackUrl
         (SiteURL (settings (handler m)) (UseFirstSiteUrl ctx))
         PolicyTypeRemote
         (UploadSessionID (Props (uploadSession m)))
         (CallbackSecret (uploadSession m))) in
  let s1 :=
    {| Callback := url;
       CallbackSecret := CallbackSecret (uploadSession m);
       Props := Props (uploadSession m) |} in
  let create := Client_CreateUploadSession ctx s1 false in
  let geturl :=
    Client_GetUploadURL ctx (ExpireAt (Props (uploadSession m)))
      (UploadSessionID (Props (uploadSession m))) in
  (exists rest, calls_of r = create :: rest)
  /\ uploadSession (mem_of r) = s1
  /\ (Callback (uploadSession (mem_of r)) = url
      /\ CallbackSecret (uploadSession (mem_of r))
         = CallbackSecret (uploadSession m)
      /\ Props (uploadSession (mem_of r)) = Props (uploadSession m))
  /\ (forall e w1,
        E create w = (Returned (Some e), w1) ->
        outcome_of r = Returned (None, Some e) /\ calls_of r = [create])
  /\ (forall w1 x e w2,
        E create w = (Returned None, w1) ->
        E geturl w1 = (Returned (x, Some e), w2) ->
        (exists wrapped,
           outcome_of r = Returned (None, Some wrapped)
           /\ Unwrap wrapped = Some e
           /\ Error wrapped = ("failed to sign upload url: " ++ Error e)%string)
        /\ calls_of r = [create; geturl])
  /\ (forall w1 uploadURL sign w2,
        E create w = (Returned None, w1) ->
        E geturl w1 = (Returned (uploadURL, sign, None), w2) ->
        exists cred,
          outcome_of r = Returned (Some cred, None)
          /\ SessionID cred = UploadSessionID (Props (uploadSession m))
          /\ Cred_ChunkSize cred = ChunkSize (Settings (Policy (handler m)))
          /\ UploadURLs cred = Some [uploadURL]
          /\ Credential cred = sign
          /\ calls_of r = [create; geturl]).
Proof.
  intros r url s1 create geturl. subst r.
  rewrite run_Token.
  unfold stamped, master_callback, write_uploadSession, set_Callback.
  cbn [uploadSession handler].
  fold url. fold s1. fold create. fold geturl.
  destruct (E create w) as [[[e|]|v] w1] eqn:Hc;
    [ | destruct (E geturl w1) as [[[[uploadURL sign] [e|]]|v] w2] eqn:Hg | ];
    (split; [eexists; reflexivity|]); (split; [reflexivity|]);
    (split; [repeat split|]);
    repeat split; settle.
Qed.

(** C3. A successful Source returns the signed form of the content URL
    built with the policy's NodeID when the configured mode is slave mode,
    and with node ID 0 otherwise.  Source returns an error exactly when the
    node's server URL does not parse or signing fails; the signing error
    comes back wrapped, the parse error as it is.  Source issues no call. *)
Theorem Source_node_id_by_mode
    (ctx : context) (e : Entity) (args : GetSourceArgs) (d : Mem) (w : W) :
  let r := run E (Source ctx e args) d w in
  let parsed := url_Parse (Server (Edges_Node (Edges (Policy d)))) in
  let signing server nodeId :=
    SignURI ctx (AuthInstance d)
      (URL_String
         (SlaveFileContentUrl server (Entity_Source e) (DisplayName args)
            (IsDownload args) (Speed args) nodeId))
      (Expire args) in
  let nodeId :=
    if (Mode (config_System (config d)) =? SlaveMode)%string
    then NodeID (Policy d) else 0%Z in
  (Mode (config_System (config d)) = SlaveMode ->
   forall url, outcome_of r = Returned (url, None) ->
   exists server signed,
     parsed = inl server
     /\ signing server (NodeID (Policy d)) = inl signed
     /\ url = URL_String signed)
  /\ (Mode (config_System (config d)) <> SlaveMode ->
      forall url, outcome_of r = Returned (url, None) ->
      exists server signed,
        parsed = inl server
        /\ signing server 0%Z = inl signed
        /\ url = URL_String signed)
  /\ ((exists url err, outcome_of r = Returned (url, Some err))
      <-> ((exists err, parsed = inr err)
           \/ (exists server err,
                 parsed = inl server /\ signing server nodeId = inr err)))
  /\ (forall server err,
        parsed = inl server -> signing server nodeId = inr err ->
        exists wrapped,
          outcome_of r = Returned ("", Some wrapped)
          /\ Unwrap wrapped = Some err
          /\ Error wrapped
             = ("failed to sign internal slave content URL: "
                  ++ Error err)%string)
  /\ (forall err, parsed = inr err -> outcome_of r = Returned ("", Some err))
  /\ (exists res, outcome_of r = Returned res)
  /\ calls_of r = [] /\ world_of r = w /\ mem_of r = d.
Proof.
  intros r parsed signing nodeId. subst r.
  rewrite run_Source. unfold outcome_of, calls_of, world_of, mem_of.
  cbn [fst snd]. fold parsed.
  assert (Hslave : Mode (config_System (config d)) = SlaveMode ->
                   source_nodeId d = NodeID (Policy d)).
  { intros H. unfold source_nodeId. rewrite H, String.eqb_refl. reflexivity. }
  assert (Hother : Mode (config_System (config d)) <> SlaveMode ->
                   source_nodeId d = 0%Z).
  { intros H. unfold source_nodeId.
    destruct (String.eqb_spec (Mode (config_System (config d))) SlaveMode);
      [contradiction | reflexivity]. }
  change (if (Mode (config_System (config d)) =? SlaveMode)%string
          then NodeID (Policy d) else 0%Z) with (source_nodeId d) in nodeId.
  subst nodeId.
  change (SignURI ctx (AuthInstance d)
            (URL_String
               (SlaveFileContentUrl ?s (Entity_Source e) (DisplayName args)
                  (IsDownload args) (Speed args) (source_nodeId d)))
            (Expire args)) with (signing s (source_nodeId d)).
  destruct parsed as [server|perr] eqn:Hp.
  - change (SignURI ctx (AuthInstance d)
              (URL_String
                 (SlaveFileContentUrl server (Entity_Source e)
                    (DisplayName args) (IsDownload args) (Speed args)
                    (source_nodeId d)))
              (Expire args)) with (signing server (source_nodeId d)).
    destruct (signing server (source_nodeId d)) as [signed|serr] eqn:Hs.
    + repeat split.
      * intros Hm url H. inversion H; subst url.
        exists server, signed. rewrite <- (Hslave Hm). auto.
      * intros Hm url H. inversion H; subst url.
        exists server, signed. rewrite <- (Hother Hm). auto.
      * intros (url & err & H). discriminate H.
      * intros [(err & H) | (server' & err & H1 & H2)]; [discriminate H|].
        inversion H1; subst server'. rewrite Hs in H2. discriminate H2.
      * intros server' err H1 H2. inversion H1; subst server'.
        rewrite Hs in H2. discriminate H2.
      * intros err H. discriminate H.
      * eexists; reflexivity.
    + repeat split.
      * intros Hm url H. discriminate H.
      * intros Hm url H. discriminate H.
      * intros _. right. exists server, serr. auto.
      * intros _. eexists _, _. reflexivity.
      * intros server' err H1 H2. inversion H1; subst server'.
        rewrite Hs in H2. inversion H2. eexists. repeat split.
      * intros err H. discriminate H.
      * eexists; reflexivity.
  - repeat split.
    + intros Hm url H. discriminate H.
    + intros Hm url H. discriminate H.
    + intros _. left. exists perr. reflexivity.
    + intros _. eexists _, _. reflexivity.
    + intros server err H. discriminate H.
    + intros err H. inversion H. reflexivity.
    + eexists; reflexivity.
Qed.

(** C4. Whatever Upload does (return nil, return an error, panic), Put
    calls Close on the request exactly once, after Upload; when Put returns
    it returns the error value Upload returned, and a panic of Upload is the
    panic Put ends with once the stream is closed. *)
Theorem Put_closes_once_and_returns_upload_error
    (ctx : context) (file : UploadRequest) (d : Mem) (w : W) :
  let r := run E (Put ctx file) d w in
  let uploaded := E (Client_Upload ctx file) w in
  let closed := E (UploadRequest_Close file) (snd uploaded) in
  calls_of r = [Client_Upload ctx file; UploadRequest_Close file]
  /\ count is_Close (calls_of r) = 1
  /\ (forall err, outcome_of r = Returned err -> fst uploaded = Returned err)
  /\ (forall err x,
        fst uploaded = Returned err -> fst closed = Returned x ->
        outcome_of r = Returned err)
  /\ (forall v x,
        fst uploaded = Panicked v -> fst closed = Returned x ->
        outcome_of r = Panicked v).
Proof.
  intros r uploaded closed.
  destruct (run_defer (S := Mem) (A := error) (R := error)
              (perform (UploadRequest_Close file))
              (perform (Client_Upload ctx file)) d w)
    as (Hcalls & _ & _ & Hout).
  subst r. unfold Put. cbn [resp]. rewrite Hcalls, Hout. clear Hcalls Hout.
  unfold run, perform, outcome_of, calls_of, mem_of, world_of, count. cbn.
  change (E (Client_Upload ctx file) w) with uploaded.
  change (E (UploadRequest_Close file) (snd uploaded)) with closed.
  clearbody closed. clearbody uploaded.
  destruct closed as [[x|v] w2], uploaded as [up w1]; cbn;
    repeat split; intros; subst; try discriminate; auto.
Qed.

(** C5. When the Session Client's List reports no error, List invokes the
    progress callback exactly once, with the number of objects (0 for none),
    after the listing and before it returns the objects with a nil error;
    when the Session Client's List reports an error, List returns nil and
    that error without invoking the callback. *)
Theorem List_reports_progress_once
    (ctx : context) (base : string) (onProgress : ListProgressFunc)
    (recursive : bool) (d : Mem) (w : W) :
  let r := run E (List ctx base onProgress recursive) d w in
  (forall res w1,
     E (Client_List ctx base recursive) w = (Returned (res, None), w1) ->
     calls_of r = [Client_List ctx base recursive;
                   ListProgressFunc_call onProgress (len res)]
     /\ count is_progress (calls_of r) = 1
     /\ (res = None \/ res = Some [] ->
         calls_of r = [Client_List ctx base recursive;
                       ListProgressFunc_call onProgress 0%Z])
     /\ (forall w2,
           E (ListProgressFunc_call onProgress (len res)) w1
             = (Returned tt, w2) ->
           outcome_of r = Returned (res, None)))
  /\ (forall res e w1,
        E (Client_List ctx base recursive) w = (Returned (res, Some e), w1) ->
        outcome_of r = Returned (None, Some e)
        /\ calls_of r = [Client_List ctx base recursive]
        /\ count is_progress (calls_of r) = 0).
Proof.
  intros r. subst r. rewrite run_List. split.
  - intros res w1 H. rewrite H.
    unfold outcome_of, calls_of, count. cbn. repeat split.
    + intros [-> | ->]; reflexivity.
    + intros w2 H2. rewrite H2. reflexivity.
  - intros res e w1 H. rewrite H. repeat split.
Qed.

(** C6. CancelToken issues one call, DeleteUploadSession with the
    descriptor's UploadSessionID, and returns how that call ended.  Run
    right after Token on the same descriptor, the deletion names the
    session ID that Token's CreateUploadSession call carried, which is also
    the SessionID of the credential Token returned. *)
Theorem CancelToken_deletes_the_session
    (ctx : context) (file : UploadRequest) (m : SessionMem) (w : W) :
  let del :=
    Client_DeleteUploadSession ctx
      (UploadSessionID (Props (uploadSession m))) in
  let rc := run E (CancelToken ctx) m w in
  let rt := run E (Token ctx file) m w in
  let rtc := run E (CancelToken ctx) (mem_of rt) (world_of rt) in
  calls_of rc = [del]
  /\ count is_remote (calls_of rc) = 1
  /\ count is_DeleteUploadSession (calls_of rc) = 1
  /\ outcome_of rc = fst (E del w)
  /\ mem_of rc = m
  /\ (exists created rest,
        calls_of rt = Client_CreateUploadSession ctx created false :: rest
        /\ calls_of rtc =
             [Client_DeleteUploadSession ctx
                (UploadSessionID (Props created))])
  /\ (forall cred,
        outcome_of rt = Returned (Some cred, None) ->
        calls_of rtc = [Client_DeleteUploadSession ctx (SessionID cred)])
  /\ outcome_of rtc =
       fst (E (Client_DeleteUploadSession ctx
                 (UploadSessionID (Props (uploadSession m))))
              (world_of rt)).
Proof.
  intros del rc rt rtc.
  destruct (Token_run_shape ctx file m w) as (Hmem & (rest & Hcalls) & Hcred).
  fold rt in Hmem, Hcalls, Hcred.
  subst rc rtc del. rewrite !run_CancelToken, Hmem.
  clearbody rt.
  unfold outcome_of at 1 3, calls_of at 1 2 3 5 6, mem_of at 1, count.
  cbn [fst snd uploadSession stamped write_uploadSession set_Callback Props
       filter is_DeleteUploadSession is_remote length].
  repeat split.
  - exists (uploadSession (stamped ctx m)), rest. split; [assumption|reflexivity].
  - intros cred H. rewrite (Hcred cred H). reflexivity.
Qed.

(** C7. Open returns a nil file and a non-nil error, LocalPath returns the
    empty string, for every context and path; neither issues any call. *)
Theorem Open_and_LocalPath_give_nothing
    (ctx : context) (path : string) (d : Mem) (w : W) :
  (exists err, outcome_of (run E (Open ctx path) d w)
               = Returned (None, Some err))
  /\ calls_of (run E (Open ctx path) d w) = []
  /\ count is_remote (calls_of (run E (Open ctx path) d w)) = 0
  /\ outcome_of (run E (LocalPath ctx path) d w) = Returned ""
  /\ calls_of (run E (LocalPath ctx path) d w) = []
  /\ count is_remote (calls_of (run E (LocalPath ctx path) d w)) = 0.
Proof.
  rewrite run_Open, run_LocalPath. repeat split. eexists; reflexivity.
Qed.

(** C8. CompleteUpload returns nil, issues no call, and leaves the
    descriptor, the driver and the environment as they were. *)
Theorem CompleteUpload_is_a_no_op (ctx : context) (m : SessionMem) (w : W) :
  let r := run E (CompleteUpload ctx) m w in
  outcome_of r = Returned None
  /\ calls_of r = []
  /\ count is_remote (calls_of r) = 0
  /\ uploadSession (mem_of r) = uploadSession m
  /\ handler (mem_of r) = handler m
  /\ world_of r = w.
Proof.
  cbv zeta. rewrite run_CompleteUpload. repeat split.
Qed.

(** C10. The first call Token issues already carries the descriptor with
    the callback stamped; so whenever Token returns an error, the
    descriptor's Callback is the master callback URL, and if it held
    something else before, the descriptor is no longer what it was. *)
Theorem Token_error_leaves_callback_set
    (ctx : context) (file : UploadRequest) (m : SessionMem) (w : W) :
  let r := run E (Token ctx file) m w in
  (exists s rest,
     calls_of r = Client_CreateUploadSession ctx s false :: rest
     /\ Callback s = master_callback ctx m)
  /\ (forall e,
        outcome_of r = Returned (None, Some e) ->
        Callback (uploadSession (mem_of r)) = master_callback ctx m
        /\ CallbackSecret (uploadSession (mem_of r))
           = CallbackSecret (uploadSession m)
        /\ Props (uploadSession (mem_of r)) = Props (uploadSession m)
        /\ handler (mem_of r) = handler m
        /\ (Callback (uploadSession m) <> master_callback ctx m ->
            uploadSession (mem_of r) <> uploadSession m)).
Proof.
  intros r.
  destruct (Token_run_shape ctx file m w) as (Hmem & (rest & Hcalls) & _).
  fold r in Hmem, Hcalls. clearbody r. rewrite Hmem, Hcalls. split.
  - eexists _, _. split; reflexivity.
  - intros e _. repeat split.
    intros Hne Heq. apply Hne. rewrite <- Heq. reflexivity.
Qed.

End DriverProperties.

(** * The theorems at work on the concrete setting *)

(** DeleteFiles reports path b as failed together with a nil error: Delete
    returns the empty list. *)
Lemma Delete_propagates_error_else_empty_witness :
  Demo.answers (Client_DeleteFiles Demo.ctx ["a"; "b"]) 1
  = (Returned (Some ["b"], None), 0)
  /\ outcome_of (run Demo.answers (Delete Demo.ctx ["a"; "b"])
                   (Demo.driver "master") 1)
     = Returned (Some [], None).
Proof.
  split; [reflexivity|].
  exact (proj1 (proj2
    (Delete_propagates_error_else_empty Demo.answers (ctx := Demo.ctx)
       (files := ["a"; "b"]) (Demo.driver "master") 1 (w' := 0)
       (failed := Some ["b"]) (err := None) eq_refl)) eq_refl).
Defined.

(** With two calls going well, Token leaves the callback URL of session
    sid-1 on the descriptor, whose callback was empty, hands
    CreateUploadSession the descriptor with that callback, and returns the
    credential of the session. *)
Lemma Token_stamps_creates_then_signs_witness :
  Callback Demo.session = ""
  /\ Callback
       (uploadSession
          (mem_of (run Demo.answers (Token Demo.ctx Demo.file) Demo.mem 2)))
     = "http://master/callback/remote/sid-1/s3cr3t"
  /\ exists cred,
       outcome_of (run Demo.answers (Token Demo.ctx Demo.file) Demo.mem 2)
       = Returned (Some cred, None)
       /\ SessionID cred = "sid-1"
       /\ Cred_ChunkSize cred = 1024%Z
       /\ UploadURLs cred = Some ["http://slave/upload/sid-1"]
       /\ Credential cred = "cred"
       /\ calls_of (run Demo.answers (Token Demo.ctx Demo.file) Demo.mem 2)
          = [Client_CreateUploadSession Demo.ctx
               {| Callback := "http://master/callback/remote/sid-1/s3cr3t";
                  CallbackSecret := "s3cr3t";
                  Props := Props Demo.session |} false;
             Client_GetUploadURL Demo.ctx 100%Z "sid-1"].
Proof.
  pose proof (Token_stamps_creates_then_signs Demo.answers Demo.ctx Demo.file
                Demo.mem 2) as H.
  split; [reflexivity|]. split.
  - exact (proj1 (proj1 (proj2 (proj2 H)))).
  - exact (proj2 (proj2 (proj2 (proj2 (proj2 H))))
             1 "http://slave/upload/sid-1" "cred" 0 eq_refl eq_refl).
Defined.

(** In slave mode the signed content URL is the one built with the
    policy's node ID 7. *)
Lemma Source_node_id_by_mode_witness :
  Mode (config_System (config (Demo.driver "slave")))
  = @SlaveMode Demo.platform
  /\ exists server signed : @URL Demo.platform,
       Demo.parse "http://slave" = inl server
       /\ SignURI Demo.ctx (HMACAuth "k")
            (URL_String
               (SlaveFileContentUrl server "f.bin" "f" true 0%Z 7%Z)) None
          = inl signed
       /\ "http://slave/content/f.bin/f?download&node&sign=k"
          = URL_String signed.
Proof.
  split; [reflexivity|].
  exact (proj1
    (Source_node_id_by_mode Demo.answers Demo.ctx Demo.entity Demo.args
       (Demo.driver "slave") 0)
    eq_refl _ eq_refl).
Defined.

(** Upload panics: the stream is still closed, once, and the panic is what
    Put ends with. *)
Lemma Put_closes_once_and_returns_upload_error_witness :
  fst (Demo.answers (Client_Upload Demo.ctx Demo.panicking_file) 0)
  = Panicked "upload panicked"
  /\ outcome_of (run Demo.answers (Put Demo.ctx Demo.panicking_file)
                   (Demo.driver "master") 0)
     = Panicked "upload panicked".
Proof.
  split; [reflexivity|].
  exact (proj2 (proj2 (proj2 (proj2
    (Put_closes_once_and_returns_upload_error Demo.answers Demo.ctx
       Demo.panicking_file (Demo.driver "master") 0))))
    "upload panicked" None eq_refl eq_refl).
Defined.

(** Three objects listed: one progress call, with 3. *)
Lemma List_reports_progress_once_witness :
  calls_of (run Demo.answers (List Demo.ctx "/" Demo.onProgress true)
              (Demo.driver "master") 1)
  = [Client_List Demo.ctx "/" true;
     ListProgressFunc_call Demo.onProgress 3%Z]
  /\ outcome_of (run Demo.answers (List Demo.ctx "/" Demo.onProgress true)
                   (Demo.driver "master") 1)
     = Returned (Some ["a"; "b"; "c"], None).
Proof.
  pose proof (proj1
    (List_reports_progress_once Demo.answers Demo.ctx "/" Demo.onProgress
       true (Demo.driver "master") 1)
    (Some ["a"; "b"; "c"]) 0 eq_refl) as H.
  split.
  - exact (proj1 H).
  - exact (proj2 (proj2 (proj2 H)) 0 eq_refl).
Defined.

(** Token then CancelToken: the deletion names sid-1, the session ID of the
    credential. *)
Lemma CancelToken_deletes_the_session_witness :
  calls_of
    (run Demo.answers (CancelToken Demo.ctx)
       (mem_of (run Demo.answers (Token Demo.ctx Demo.file) Demo.mem 3))
       (world_of (run Demo.answers (Token Demo.ctx Demo.file) Demo.mem 3)))
  = [Client_DeleteUploadSession Demo.ctx "sid-1"].
Proof.
  exact (proj1 (proj2 (proj2 (proj2 (proj2 (proj2 (proj2
    (CancelToken_deletes_the_session Demo.answers Demo.ctx Demo.file
       Demo.mem 3)))))))
    {| SessionID := "sid-1";
       Cred_ChunkSize := 1024%Z;
       UploadURLs := Some ["http://slave/upload/sid-1"];
       Credential := "cred" |}
    eq_refl).
Defined.

(** CreateUploadSession fails: Token returns that error, and the
    descriptor, whose callback was empty, now carries the callback URL. *)
Lemma Token_error_leaves_callback_set_witness :
  outcome_of (run Demo.answers (Token Demo.ctx Demo.file) Demo.mem 0)
  = Returned (None, Some (errors_New "create failed"))
  /\ Callback (uploadSession
                 (mem_of (run Demo.answers (Token Demo.ctx Demo.file)
                            Demo.mem 0)))
     = "http://master/callback/remote/sid-1/s3cr3t"
  /\ uploadSession
       (mem_of (run Demo.answers (Token Demo.ctx Demo.file) Demo.mem 0))
     <> uploadSession Demo.mem.
Proof.
  pose proof (proj2
    (Token_error_leaves_callback_set Demo.answers Demo.ctx Demo.file
       Demo.mem 0)
    (errors_New "create failed") eq_refl) as H.
  split; [reflexivity|]. split.
  - exact (proj1 H).
  - apply (proj2 (proj2 (proj2 (proj2 H)))). discriminate.
Defined.

(** * Further properties of the driver *)

Section FurtherProperties.

Context {P : Platform}.

Variable W : Type.
Variable E : env W.

Lemma run_MediaMeta (ctx : context) (path ext : string) (d : Mem) (w : W) :
  run E (MediaMeta ctx path ext) d w =
  (d, fst (E (Client_MediaMeta ctx path ext) w),
   snd (E (Client_MediaMeta ctx path ext) w),
   [Client_MediaMeta ctx path ext]).
Proof. reflexivity. Qed.

Lemma run_Capabilities (d : Mem) (w : W) :
  run E Capabilities d w =
  (d,
   Returned
     {| StaticFeatures := features;
        MediaMetaSupportedExts := MediaMetaExts (Settings (Policy d));
        MediaMetaProxy := MediaMetaGeneratorProxy (Settings (Policy d));
        ThumbSupportedExts := ThumbExts (Settings (Policy d));
        ThumbProxy := ThumbGeneratorProxy (Settings (Policy d));
        Cap_ThumbMaxSize := ThumbMaxSize (Settings (Policy d));
        Cap_ThumbSupportAllExts := ThumbSupportAllExts (Settings (Policy d)) |},
   w, []).
Proof. reflexivity. Qed.


(** X2. Thumb reads nothing of the driver but the node's server address
    and the signing instance: two drivers that agree on these give the same
    result, whatever their configured mode, node ID, policy settings and
    site settings, and whatever the environment. *)
Theorem Thumb_reads_only_server_and_secret
    (W2 : Type) (E2 : env W2) (w2 : W2)
    (ctx : context) (expire : option Time) (ext : string) (e : Entity)
    (d1 d2 : Mem) (w : W) :
  Server (Edges_Node (Edges (Policy d1)))
  = Server (Edges_Node (Edges (Policy d2))) ->
  AuthInstance d1 = AuthInstance d2 ->
  outcome_of (run E (Thumb ctx expire ext e) d1 w)
  = outcome_of (run E2 (Thumb ctx expire ext e) d2 w2).
Proof.
  intros Hserver Hauth. rewrite !run_Thumb.
  unfold outcome_of. cbn [fst snd]. rewrite Hserver, Hauth. reflexivity.
Qed.

(** X3. Source reads the configured mode and the policy's node ID only
    through the node ID it embeds: a driver outside slave mode and a
    slave-mode driver whose policy has node ID 0 give the same result when
    they agree on the server address and the signing instance. *)
Theorem Source_slave_with_node_zero_is_as_master
    (W2 : Type) (E2 : env W2) (w2 : W2)
    (ctx : context) (e : Entity) (args : GetSourceArgs)
    (d1 d2 : Mem) (w : W) :
  Server (Edges_Node (Edges (Policy d1)))
  = Server (Edges_Node (Edges (Policy d2))) ->
  AuthInstance d1 = AuthInstance d2 ->
  Mode (config_System (config d1)) <> SlaveMode ->
  Mode (config_System (config d2)) = SlaveMode ->
  NodeID (Policy d2) = 0%Z ->
  outcome_of (run E (Source ctx e args) d1 w)
  = outcome_of (run E2 (Source ctx e args) d2 w2).
Proof.
  intros Hserver Hauth Hm1 Hm2 Hnode. rewrite !run_Source.
  unfold outcome_of, source_nodeId. cbn [fst snd].
  rewrite Hserver, Hauth, Hm2, String.eqb_refl, Hnode.
  destruct (String.eqb_spec (Mode (config_System (config d1))) SlaveMode)
    as [Heq|_]; [contradiction|reflexivity].
Qed.

(** X4. MediaMeta hands back what the Session Client's MediaMeta gave,
    untouched: the entries are kept also when they come with an error
    (List, by contrast, replaces the objects by nil then), the error is not
    wrapped, and a panic unwinds.  It is the single call issued. *)
Theorem MediaMeta_forwards_verbatim
    (ctx : context) (path ext : string) (base : string)
    (onProgress : ListProgressFunc) (recursive : bool) (d : Mem) (w : W) :
  let r := run E (MediaMeta ctx path ext) d w in
  outcome_of r = fst (E (Client_MediaMeta ctx path ext) w)
  /\ calls_of r = [Client_MediaMeta ctx path ext]
  /\ world_of r = snd (E (Client_MediaMeta ctx path ext) w)
  /\ (forall entries err,
        fst (E (Client_MediaMeta ctx path ext) w)
        = Returned (entries, Some err) ->
        outcome_of r = Returned (entries, Some err))
  /\ (forall objects err,
        fst (E (Client_List ctx base recursive) w)
        = Returned (objects, Some err) ->
        outcome_of (run E (List ctx base onProgress recursive) d w)
        = Returned (None, Some err)).
Proof.
  cbv zeta. rewrite run_MediaMeta, run_List.
  unfold outcome_of, calls_of, world_of. cbn [fst snd].
  repeat split.
  - intros entries err H. exact H.
  - intros objects err.
    destruct (E (Client_List ctx base recursive) w) as [o w1]. cbn [fst].
    intros ->. reflexivity.
Qed.

(** X5. Capabilities never fails and issues no call.  The descriptor it
    returns carries the policy's six settings field by field and the empty
    static feature set; it depends on nothing but the policy's settings. *)
Theorem Capabilities_reflect_policy_settings
    (W2 : Type) (E2 : env W2) (w2 : W2) (d d2 : Mem) (w : W) :
  let r := run E Capabilities d w in
  (exists caps,
     outcome_of r = Returned caps
     /\ MediaMetaSupportedExts caps = MediaMetaExts (Settings (Policy d))
     /\ MediaMetaProxy caps = MediaMetaGeneratorProxy (Settings (Policy d))
     /\ ThumbSupportedExts caps = ThumbExts (Settings (Policy d))
     /\ ThumbProxy caps = ThumbGeneratorProxy (Settings (Policy d))
     /\ Cap_ThumbMaxSize caps = ThumbMaxSize (Settings (Policy d))
     /\ Cap_ThumbSupportAllExts caps
        = ThumbSupportAllExts (Settings (Policy d))
     /\ len (StaticFeatures caps) = 0%Z)
  /\ calls_of r = []
  /\ (Settings (Policy d) = Settings (Policy d2) ->
      outcome_of r = outcome_of (run E2 Capabilities d2 w2)).
Proof.
  cbv zeta. rewrite !run_Capabilities.
  unfold outcome_of, calls_of. cbn [fst snd].
  split; [|split].
  - eexists. repeat split.
  - reflexivity.
  - intros ->. reflexivity.
Qed.

(** X6. The calls of Token, in every run: CreateUploadSession first, and
    GetUploadURL second only when CreateUploadSession returned a nil error.
    Token never issues DeleteUploadSession: when GetUploadURL fails, the
    session just created on the node is left there.  A credential is
    returned only after both calls went through. *)
Theorem Token_call_discipline
    (ctx : context) (file : UploadRequest) (m : SessionMem) (w : W) :
  let r := run E (Token ctx file) m w in
  let create :=
    Client_CreateUploadSession ctx
      (set_Callback (master_callback ctx m) (uploadSession m)) false in
  let geturl :=
    Client_GetUploadURL ctx (ExpireAt (Props (uploadSession m)))
      (UploadSessionID (Props (uploadSession m))) in
  (calls_of r = [create] \/ calls_of r = [create; geturl])
  /\ (calls_of r = [create; geturl] <-> fst (E create w) = Returned None)
  /\ count is_DeleteUploadSession (calls_of r) = 0
  /\ (forall cred err,
        outcome_of r = Returned (Some cred, err) ->
        calls_of r = [create; geturl] /\ err = None)
  /\ (forall x e w1 w2,
        E create w = (Returned None, w1) ->
        E geturl w1 = (Returned (x, Some e), w2) ->
        world_of r = w2 /\ count is_DeleteUploadSession (calls_of r) = 0).
Proof.
  intros r create geturl. subst r. rewrite run_Token.
  unfold stamped. cbn [uploadSession write_uploadSession].
  fold create. fold geturl.
  destruct (E create w) as [[[e|]|v] w1] eqn:Hc;
    [ | destruct (E geturl w1) as [[[[uploadURL sign] [e|]]|v] w2] eqn:Hg | ];
    unfold outcome_of, calls_of, world_of, count; cbn;
    (split; [auto|]); (split; [split; intros H; try discriminate H; auto|]);
    (split; [reflexivity|]);
    (split; [intros cred err H; inversion H; auto|]);
    intros x e' w1' w2' H1 H2; inversion H1; subst;
    rewrite Hg in H2; inversion H2; auto.
Qed.


(** X8. What Close does shows in Put's result only when Close panics: an
    error returned by Close is dropped, even when Upload returned nil, and a
    panic of Close is the one Put ends with, whatever Upload returned or
    panicked with.  The environment is left as Close left it. *)
Theorem Put_close_error_dropped_close_panic_wins
    (ctx : context) (file : UploadRequest) (d : Mem) (w : W) :
  let r := run E (Put ctx file) d w in
  let uploaded := E (Client_Upload ctx file) w in
  let closed := E (UploadRequest_Close file) (snd uploaded) in
  (forall cerr,
     fst uploaded = Returned None -> fst closed = Returned (Some cerr) ->
     outcome_of r = Returned None)
  /\ (forall v, fst closed = Panicked v -> outcome_of r = Panicked v)
  /\ world_of r = snd closed.
Proof.
  intros r uploaded closed.
  destruct (run_defer E (S := Mem) (A := error) (R := error)
              (perform (UploadRequest_Close file))
              (perform (Client_Upload ctx file)) d w)
    as (_ & _ & Hworld & Hout).
  subst r. unfold Put. cbn [resp]. rewrite Hworld, Hout. clear Hworld Hout.
  unfold run, perform, outcome_of, calls_of, mem_of, world_of. cbn.
  change (E (Client_Upload ctx file) w) with uploaded.
  change (E (UploadRequest_Close file) (snd uploaded)) with closed.
  clearbody closed. clearbody uploaded.
  destruct closed as [[x|v] w2], uploaded as [up w1]; cbn;
    repeat split; intros; subst; try discriminate; auto.
Qed.



(** X10. No method writes to the driver: after any run of any method,
    whatever the collaborators answered, the driver is what it was.
    CancelToken and CompleteUpload leave the descriptor untouched as well. *)
Theorem methods_never_write_the_driver
    (ctx : context) (base path ext : string) (onProgress : ListProgressFunc)
    (recursive : bool) (files : list string) (file : UploadRequest)
    (expire : option Time) (e : Entity) (args : GetSourceArgs)
    (d : Mem) (m : SessionMem) (w : W) :
  mem_of (run E (List ctx base onProgress recursive) d w) = d
  /\ mem_of (run E (Open ctx path) d w) = d
  /\ mem_of (run E (LocalPath ctx path) d w) = d
  /\ mem_of (run E (Put ctx file) d w) = d
  /\ mem_of (run E (Delete ctx files) d w) = d
  /\ mem_of (run E (Thumb ctx expire ext e) d w) = d
  /\ mem_of (run E (Source ctx e args) d w) = d
  /\ mem_of (run E Capabilities d w) = d
  /\ mem_of (run E (MediaMeta ctx path ext) d w) = d
  /\ handler (mem_of (run E (Token ctx file) m w)) = handler m
  /\ mem_of (run E (CancelToken ctx) m w) = m
  /\ mem_of (run E (CompleteUpload ctx) m w) = m.
Proof.
  destruct (Token_run_shape E ctx file m w) as (Hmem & _).
  cbv zeta in Hmem. rewrite Hmem.
  destruct (run_defer E (S := Mem) (A := error) (R := error)
              (perform (UploadRequest_Close file))
              (perform (Client_Upload ctx file)) d w)
    as (_ & Hput & _).
  unfold Put. cbn [resp]. rewrite Hput. clear Hput Hmem.
  rewrite run_List, run_Open, run_LocalPath, run_Delete, run_Thumb,
    run_Source, run_Capabilities, run_MediaMeta, run_CancelToken,
    run_CompleteUpload.
  destruct (E (Client_List ctx base recursive) w) as [[[res [err|]]|v] w1];
    repeat split.
Qed.

(** X11. New returns a driver exactly when NewClient returned a nil error,
    and otherwise no driver and NewClient's error.  The driver carries the
    policy, the settings and the configuration it was given and signs with
    the slave key of the policy's node; so Thumb on it parses that node's
    server address and hands the signer that key. *)
Theorem New_builds_a_driver_that_signs_with_the_node_key
    (ctx : context) (policy : StoragePolicy) (setting : SettingProvider)
    (conf : ConfigProvider) (newClient : error)
    (expire : option Time) (ext : string) (e : Entity) (w : W) :
  let built := New ctx policy setting conf newClient in
  (forall err, newClient = Some err -> built = (None, Some err))
  /\ ((exists d, fst built = Some d) <-> newClient = None)
  /\ (forall d,
        fst built = Some d ->
        snd built = None
        /\ Policy d = policy /\ settings d = setting /\ config d = conf
        /\ signs_with_node_key d
        /\ outcome_of (run E (Thumb ctx expire ext e) d w)
           = Returned
               match url_Parse (Server (Edges_Node (Edges policy))) with
               | inr err =>
                   ("", Some (fmt_Errorf_w "parse server url failed: " err))
               | inl serverURL =>
                   match
                     SignURI ctx
                       (HMACAuth (SlaveKey (Edges_Node (Edges policy))))
                       (URL_String
                          (SlaveThumbUrl serverURL (Entity_Source e) ext))
                       expire
                   with
                   | inr err => ("", Some err)
                   | inl signed => (URL_String signed, None)
                   end
               end).
Proof.
  intros built. subst built. unfold New.
  destruct newClient as [err|]; cbn [fst snd].
  - split; [|split].
    + intros err' H. inversion H. reflexivity.
    + split; [intros (d & H); discriminate H | intros H; discriminate H].
    + intros d H. discriminate H.
  - split; [|split].
    + intros err H. discriminate H.
    + split; [reflexivity | intros _; eexists; reflexivity].
    + intros d H. inversion H; subst d. rewrite run_Thumb.
      unfold signs_with_node_key, outcome_of. cbn. repeat split.
Qed.

(** X12. Which methods return a result together with an error.  Token,
    Open, List, Thumb and Source never do: Token returns a credential
    exactly when its error is nil, Open returns no file and an error, List
    returns nil objects with an error, Thumb and Source the empty string.
    Delete and MediaMeta do: whatever list the Session Client reported
    together with an error comes back with that error.  With a nil error
    Delete returns the empty, non-nil list. *)
Theorem which_results_come_with_an_error
    (ctx : context) (base path ext : string) (onProgress : ListProgressFunc)
    (recursive : bool) (files : list string) (file : UploadRequest)
    (expire : option Time) (e : Entity) (args : GetSourceArgs)
    (d : Mem) (m : SessionMem) (w : W) :
  (forall cred err,
     outcome_of (run E (Token ctx file) m w) = Returned (cred, err) ->
     (cred = None <-> err <> None))
  /\ (forall f err,
        outcome_of (run E (Open ctx path) d w) = Returned (f, err) ->
        f = None /\ err <> None)
  /\ (forall objects err,
        outcome_of (run E (List ctx base onProgress recursive) d w)
        = Returned (objects, Some err) ->
        objects = None)
  /\ (forall url err,
        outcome_of (run E (Thumb ctx expire ext e) d w)
        = Returned (url, Some err) ->
        url = "")
  /\ (forall url err,
        outcome_of (run E (Source ctx e args) d w)
        = Returned (url, Some err) ->
        url = "")
  /\ (forall failed err,
        fst (E (Client_DeleteFiles ctx files) w) = Returned (failed, Some err) ->
        outcome_of (run E (Delete ctx files) d w)
        = Returned (failed, Some err))
  /\ (forall failed,
        outcome_of (run E (Delete ctx files) d w) = Returned (failed, None) ->
        failed = Some [])
  /\ (forall entries err,
        fst (E (Client_MediaMeta ctx path ext) w)
        = Returned (entries, Some err) ->
        outcome_of (run E (MediaMeta ctx path ext) d w)
        = Returned (entries, Some err)).
Proof.
  rewrite run_Token, run_Open, run_List, run_Delete, run_Thumb, run_Source,
    run_MediaMeta.
  unfold outcome_of. cbn [fst snd].
  split; [|split; [|split; [|split; [|split; [|split; [|split]]]]]].
  - intros cred err. cbv zeta.
    repeat match goal with
           | |- context [match ?x with _ => _ end] => destruct x
           end; cbn; intros H; inversion H; split; congruence.
  - intros f err H. inversion H. split; congruence.
  - intros objects err.
    repeat match goal with
           | |- context [match ?x with _ => _ end] => destruct x
           end; cbn; intros H; inversion H; reflexivity.
  - intros url err.
    repeat match goal with
           | |- context [match ?x with _ => _ end] => destruct x
           end; cbn; intros H; inversion H; reflexivity.
  - intros url err.
    repeat match goal with
           | |- context [match ?x with _ => _ end] => destruct x
           end; cbn; intros H; inversion H; reflexivity.
  - intros failed err H. rewrite H. reflexivity.
  - intros failed.
    repeat match goal with
           | |- context [match ?x with _ => _ end] => destruct x
           end; cbn; intros H; inversion H; reflexivity.
  - intros entries err H. exact H.
Qed.

End FurtherProperties.

(** * The further properties at work on the concrete setting *)


(** A master-mode driver with node ID 7 and a slave-mode driver with node
    ID 0, other settings and another site URL: the same thumbnail URL. *)
Lemma Thumb_reads_only_server_and_secret_witness :
  outcome_of (run Demo.answers (Thumb Demo.ctx None "jpg" Demo.entity)
                (Demo.driver "master") 0)
  = outcome_of (run Demo.all_panic (Thumb Demo.ctx None "jpg" Demo.entity)
                  Demo.slave_driver_node_zero 5).
Proof.
  exact (Thumb_reads_only_server_and_secret Demo.answers Demo.all_panic 5
           Demo.ctx None "jpg" Demo.entity (Demo.driver "master")
           Demo.slave_driver_node_zero 0 eq_refl eq_refl).
Defined.

(** The same two drivers give the same content URL. *)
Lemma Source_slave_with_node_zero_is_as_master_witness :
  outcome_of (run Demo.answers (Source Demo.ctx Demo.entity Demo.args)
                (Demo.driver "master") 0)
  = outcome_of (run Demo.all_panic (Source Demo.ctx Demo.entity Demo.args)
                  Demo.slave_driver_node_zero 5).
Proof.
  apply (Source_slave_with_node_zero_is_as_master Demo.answers Demo.all_panic
           5 Demo.ctx Demo.entity Demo.args (Demo.driver "master")
           Demo.slave_driver_node_zero 0);
    solve [reflexivity | discriminate].
Defined.

(** Entries reported together with an error come back together. *)
Lemma MediaMeta_forwards_verbatim_witness :
  outcome_of (run Demo.meta_partial (MediaMeta Demo.ctx "a.jpg" "jpg")
                (Demo.driver "master") 0)
  = Returned (Some ["width=1"], Some (errors_New "meta failed")).
Proof.
  exact (proj1 (proj2 (proj2 (proj2
    (MediaMeta_forwards_verbatim Demo.meta_partial Demo.ctx "a.jpg" "jpg"
       "/" Demo.onProgress true (Demo.driver "master") 0))))
    (Some ["width=1"]) (errors_New "meta failed") eq_refl).
Defined.

(** Two drivers on policies with the same settings: the same descriptor. *)
Lemma Capabilities_reflect_policy_settings_witness :
  outcome_of (run Demo.answers Capabilities (Demo.driver "slave") 0)
  = outcome_of (run Demo.all_panic Capabilities Demo.driver_with_bad_server 3).
Proof.
  exact (proj2 (proj2
    (Capabilities_reflect_policy_settings Demo.answers Demo.all_panic 3
       (Demo.driver "slave") Demo.driver_with_bad_server 0))
    eq_refl).
Defined.

(** The session is created and GetUploadURL fails: no deletion follows. *)
Lemma Token_call_discipline_witness :
  outcome_of (run Demo.answers (Token Demo.ctx Demo.file) Demo.mem 1)
  = Returned (None, Some (fmt_Errorf_w "failed to sign upload url: "
                            (errors_New "sign failed")))
  /\ world_of (run Demo.answers (Token Demo.ctx Demo.file) Demo.mem 1) = 0
  /\ count is_DeleteUploadSession
       (calls_of (run Demo.answers (Token Demo.ctx Demo.file) Demo.mem 1))
     = 0.
Proof.
  split; [reflexivity|].
  exact (proj2 (proj2 (proj2 (proj2
    (Token_call_discipline Demo.answers Demo.ctx Demo.file Demo.mem 1))))
    ("", "") (errors_New "sign failed") 0 0 eq_refl eq_refl).
Defined.

(** Upload panics and Close panics: Put ends with the panic of Close. *)
Lemma Put_close_error_dropped_close_panic_wins_witness :
  fst (Demo.close_panics (Client_Upload Demo.ctx Demo.panicking_file) 0)
  = Panicked "upload panicked"
  /\ outcome_of (run Demo.close_panics (Put Demo.ctx Demo.panicking_file)
                   (Demo.driver "master") 0)
     = Panicked "close panicked".
Proof.
  split; [reflexivity|].
  exact (proj1 (proj2
    (Put_close_error_dropped_close_panic_wins Demo.close_panics Demo.ctx
       Demo.panicking_file (Demo.driver "master") 0))
    "close panicked" eq_refl).
Defined.


(** New on the demo policy: the driver signs with the node's key k. *)
Lemma New_builds_a_driver_that_signs_with_the_node_key_witness :
  exists d,
    New Demo.ctx Demo.policy (settings (Demo.driver "master"))
      (config (Demo.driver "master")) None
    = (Some d, None)
    /\ AuthInstance d = HMACAuth "k"
    /\ outcome_of (run Demo.answers (Thumb Demo.ctx None "jpg" Demo.entity)
                     d 0)
       = Returned ("http://slave/thumb/f.bin.jpg&sign=k", None).
Proof.
  exists (Demo.driver "master"). split; [reflexivity|].
  pose proof (proj2 (proj2
    (New_builds_a_driver_that_signs_with_the_node_key Demo.answers Demo.ctx
       Demo.policy (settings (Demo.driver "master"))
       (config (Demo.driver "master")) None
       None "jpg" Demo.entity 0))
    (Demo.driver "master") eq_refl) as H.
  split.
  - exact (proj1 (proj2 (proj2 (proj2 (proj2 H))))).
  - exact (proj2 (proj2 (proj2 (proj2 (proj2 H))))).
Defined.

(** DeleteFiles reports both paths as failed together with an error:
    Delete returns the two paths and the error. *)
Lemma which_results_come_with_an_error_witness :
  outcome_of (run Demo.answers (Delete Demo.ctx ["a"; "b"])
                (Demo.driver "master") 0)
  = Returned (Some ["a"; "b"], Some (errors_New "delete failed")).
Proof.
  exact (proj1 (proj2 (proj2 (proj2 (proj2 (proj2
    (which_results_come_with_an_error Demo.answers Demo.ctx "/" "a.jpg" "jpg"
       Demo.onProgress true ["a"; "b"] Demo.file None Demo.entity Demo.args
       (Demo.driver "master") Demo.mem 0))))))
    (Some ["a"; "b"]) (errors_New "delete failed") eq_refl).
Defined.
